(** * Session reconciler of the community dashboard (hooks/useAuth.tsx)

    A shallow embedding of [AuthProvider] and [useAuth]: the React state
    cells [user] and [authReady], the Firestore collection of role records,
    the session-change handler with [fetchUserData], and the four actions
    [login], [signup], [loginWithGoogle] and [logout].

    The Firebase SDK is not part of the repository.  Its calls are primitive
    operations whose outcome (resolve or reject, and with what) is read from
    an arbitrary oracle [Firebase]; every theorem quantifies over it. *)

From Stdlib Require Import SpecFloat.
From stdpp Require Import base option list strings gmap fin_maps.

Open Scope string_scope.
Open Scope list_scope.

(** ** JavaScript values stored in documents *)

Module Js.

(** Field values of a Firestore document.  A number is an IEEE 754 double,
    with its two zeros, its infinities and NaN; arrays and maps stand for the
    object-valued fields.  A field that is absent from the document reads as
    [undefined], which is [None] at the lookup. *)
#[warnings="-register-all"] Inductive value : Type :=
| Null
| Bool (b : bool)
| Num (x : spec_float)
| Str (s : string)
| Array (items : list value)
| Map (fields : list (string * value)).

(** ToBoolean: [null], [false], [+0], [-0], [NaN] and the empty string are
    falsy, every other value, objects included, is truthy. *)
Definition truthy (v : value) : bool :=
  match v with
  | Null => false
  | Bool b => b
  | Num (S754_zero _) => false
  | Num S754_nan => false
  | Num (S754_infinity _) => true
  | Num (S754_finite _ _ _) => true
  | Str s => negb (String.eqb s "")
  | Array _ => true
  | Map _ => true
  end.

(** [a || d], where [a] is a property read (undefined when absent) *)
Definition or (a : option value) (d : value) : value :=
  match a with
  | Some v => if truthy v then v else d
  | None => d
  end.

(** A [string | null] property as a field value *)
Definition of_nullable (s : option string) : value :=
  match s with
  | Some x => Str x
  | None => Null
  end.

(** String.prototype.startsWith and includes *)
Fixpoint startsWith (s p : string) : bool :=
  match p, s with
  | EmptyString, _ => true
  | String c p', String d s' => if Ascii.eqb c d then startsWith s' p' else false
  | String _ _, EmptyString => false
  end.

Fixpoint includes (s p : string) : bool :=
  startsWith s p ||
  match s with
  | EmptyString => false
  | String _ s' => includes s' p
  end.

(** What a [throw] carries: a [FirebaseError] (it has a [code]), a plain
    [Error], or an error object of some other class that happens to have a
    [code] property. *)
Inductive thrown : Type :=
| FirebaseError (code message : string)
| Error (message : string)
| OtherError (code message : string).

#[global] Instance thrown_eq_dec : EqDecision thrown.
Proof. solve_decision. Defined.

Definition instanceof_FirebaseError (e : thrown) : bool :=
  match e with
  | FirebaseError _ _ => true
  | _ => false
  end.

Definition code (e : thrown) : option string :=
  match e with
  | FirebaseError c _ => Some c
  | Error _ => None
  | OtherError c _ => Some c
  end.

Definition message (e : thrown) : string :=
  match e with
  | FirebaseError _ m => m
  | Error m => m
  | OtherError _ m => m
  end.

End Js.

(** ** Data model *)

(** firebase/auth [User]: the properties the component can observe. *)
Record User : Type := {
  uid : string;
  email : option string;
  displayName : option string;
  emailVerified : bool;
}.

(** [interface ExtendedUser extends User { role?: string }].  The object is
    built as [{ ...firebaseUser, role }]; at run time [role] holds whatever
    value the expression produced. *)
Record ExtendedUser : Type := {
  spread : User;
  role : option Js.value;
}.

Record UserCredential : Type := {
  cred_user : User;
}.

(** A document reference is its collection and its id; document data is a
    map from field names to values. *)
Abbreviation DocRef := (string * string)%type (only parsing).
Abbreviation DocumentData := (gmap string Js.value) (only parsing).
Abbreviation Snapshot := (option (gmap string Js.value)) (only parsing).

Definition doc (collection id : string) : DocRef := (collection, id).

(** Everything the component does to the outside, in order. *)
Inductive Event : Type :=
| EGetDoc (ref : DocRef)
| ESetDoc (ref : DocRef) (data : DocumentData)
| ESetUser (u : option ExtendedUser)
| ESetAuthReady (b : bool)
| ESignInWithEmailAndPassword (email password : string)
| ECreateUserWithEmailAndPassword (email password : string)
| ESignInWithPopup
| ESignOut
| EConsoleError (label : string) (err : option Js.thrown).

(** The two [useState] cells of [AuthProvider], the Firestore database [db],
    and the log of effects. *)
Record World : Type := {
  firestore : gmap (string * string) (gmap string Js.value);
  user : option ExtendedUser;
  authReady : bool;
  trace : list Event;
}.

Definition emit (e : Event) (w : World) : World :=
  {| firestore := firestore w; user := user w; authReady := authReady w;
     trace := trace w ++ [e] |}.

Definition write_user (u : option ExtendedUser) (w : World) : World :=
  {| firestore := firestore w; user := u; authReady := authReady w;
     trace := trace w |}.

Definition write_authReady (b : bool) (w : World) : World :=
  {| firestore := firestore w; user := user w; authReady := b;
     trace := trace w |}.

Definition write_doc (ref : DocRef) (data : DocumentData) (w : World) : World :=
  {| firestore := <[ref := data]> (firestore w); user := user w;
     authReady := authReady w; trace := trace w |}.

(** ** Promises: state and exceptions *)

Inductive Result (A : Type) : Type :=
| Ok (a : A)
| Throw (e : Js.thrown).
Arguments Ok {A} a.
Arguments Throw {A} e.

Definition M (A : Type) : Type := World → Result A * World.

#[export] Instance M_ret : MRet M := λ A a w, (Ok a, w).

#[export] Instance M_bind : MBind M := λ A B k m w,
  match m w with
  | (Ok a, w') => k a w'
  | (Throw e, w') => (Throw e, w')
  end.

Definition throw {A : Type} (e : Js.thrown) : M A := λ w, (Throw e, w).

(** [try { m } catch (err) { h err }] *)
Definition try_catch {A : Type} (m : M A) (h : Js.thrown → M A) : M A := λ w,
  match m w with
  | (Ok a, w') => (Ok a, w')
  | (Throw e, w') => h e w'
  end.

Definition fulfilled {A : Type} (r : Result A * World) : Prop :=
  ∃ a, r.1 = Ok a.

Definition rejected {A : Type} (r : Result A * World) (e : Js.thrown) : Prop :=
  r.1 = Throw e.

(** ** The Firebase SDK as an oracle

    The number is the length of the log at the time of the call, so one
    oracle can answer the same call differently at different times. *)
Record Firebase : Type := {
  getDoc_rejects : nat → DocRef → option Js.thrown;
  setDoc_rejects : nat → DocRef → DocumentData → option Js.thrown;
  signInWithEmailAndPassword_result : nat → string → string → Result UserCredential;
  createUserWithEmailAndPassword_result : nat → string → string → Result UserCredential;
  signInWithPopup_result : nat → Result UserCredential;
  signOut_rejects : nat → option Js.thrown;
}.

Module AuthContextType.
Record t : Type := {
  user : option ExtendedUser;
  authReady : bool;
  login : string → string → M unit;
  signup : string → string → M unit;
  loginWithGoogle : M unit;
  logout : M unit;
}.
End AuthContextType.

(** [createContext<AuthContextType>({...})]: the default value. *)
Definition AuthContext : AuthContextType.t := {|
  AuthContextType.user := None;
  AuthContextType.authReady := false;
  AuthContextType.login := λ _ _, mret ();
  AuthContextType.signup := λ _ _, mret ();
  AuthContextType.loginWithGoogle := mret ();
  AuthContextType.logout := mret ();
|}.

(** [useContext]: the value of the nearest enclosing provider, the default
    of the context when there is none. *)
Definition useContext (nearest : option AuthContextType.t) : AuthContextType.t :=
  match nearest with
  | Some v => v
  | None => AuthContext
  end.

Definition useAuth (nearest : option AuthContextType.t) : AuthContextType.t :=
  useContext nearest.

Section AuthProvider.

Variable fb : Firebase.

Definition now (w : World) : nat := length (trace w).

(** *** SDK calls and state setters *)

Definition getDoc (ref : DocRef) : M Snapshot := λ w,
  match getDoc_rejects fb (now w) ref with
  | Some e => (Throw e, emit (EGetDoc ref) w)
  | None => (Ok (firestore w !! ref), emit (EGetDoc ref) w)
  end.

(** [setDoc] without merge options replaces the whole document. *)
Definition setDoc (ref : DocRef) (data : DocumentData) : M unit := λ w,
  match setDoc_rejects fb (now w) ref data with
  | Some e => (Throw e, emit (ESetDoc ref data) w)
  | None => (Ok (), write_doc ref data (emit (ESetDoc ref data) w))
  end.

Definition signInWithEmailAndPassword (email password : string) : M UserCredential := λ w,
  (signInWithEmailAndPassword_result fb (now w) email password,
   emit (ESignInWithEmailAndPassword email password) w).

Definition createUserWithEmailAndPassword (email password : string) : M UserCredential := λ w,
  (createUserWithEmailAndPassword_result fb (now w) email password,
   emit (ECreateUserWithEmailAndPassword email password) w).

Definition signInWithPopup : M UserCredential := λ w,
  (signInWithPopup_result fb (now w), emit ESignInWithPopup w).

Definition signOut : M unit := λ w,
  match signOut_rejects fb (now w) with
  | Some e => (Throw e, emit ESignOut w)
  | None => (Ok (), emit ESignOut w)
  end.

Definition console_error (label : string) (err : option Js.thrown) : M unit := λ w,
  (Ok (), emit (EConsoleError label err) w).

Definition setUser (u : option ExtendedUser) : M unit := λ w,
  (Ok (), write_user u (emit (ESetUser u) w)).

Definition setAuthReady (b : bool) : M unit := λ w,
  (Ok (), write_authReady b (emit (ESetAuthReady b) w)).

(** *** The component *)

Definition fetchUserData (firebaseUser : User) : M unit :=
  let userRef := doc "users" (uid firebaseUser) in
  snap ← getDoc userRef;
  match snap with
  | Some data =>
      let roleData := Js.or (data !! "role") (Js.Str "member") in
      setUser (Some {| spread := firebaseUser; role := Some roleData |})
  | None =>
      let initialRole := Js.Str "member" in
      setDoc userRef
        (<["uid" := Js.Str (uid firebaseUser)]>
         (<["email" := Js.of_nullable (email firebaseUser)]>
          (<["role" := initialRole]> ∅)));;
      setUser (Some {| spread := firebaseUser; role := Some initialRole |})
  end.

(** The callback handed to [onAuthStateChanged]. *)
Definition onAuthStateChanged (firebaseUser : option User) : M unit :=
  match firebaseUser with
  | Some u => fetchUserData u
  | None => setUser None
  end;;
  setAuthReady true.

Definition login (email password : string) : M unit :=
  try_catch
    (signInWithEmailAndPassword email password;; mret ())
    (λ err, console_error "Login error:" (Some err);; throw err).

Definition signup (email password : string) : M unit :=
  try_catch
    (cred ← createUserWithEmailAndPassword email password;
     setDoc (doc "users" (uid (cred_user cred)))
       (<["uid" := Js.Str (uid (cred_user cred))]>
        (<["email" := Js.Str email]>
         (<["role" := Js.Str "member"]> ∅))))
    (λ err, console_error "Signup error:" (Some err);; throw err).

Definition popup_blocked (err : Js.thrown) : bool :=
  Js.instanceof_FirebaseError err &&
  bool_decide (Js.code err = Some "auth/popup-blocked").

Definition loginWithGoogle : M unit :=
  try_catch
    (signInWithPopup;; mret ())
    (λ err,
       if popup_blocked err then
         (console_error
            "Google login failed: Pop-up was blocked. Recommend switching to signInWithRedirect."
            None;;
          throw (Js.Error
            "Google login failed: Your browser blocked the sign-in pop-up. Please allow pop-ups for this site or try again."))
       else
         (console_error "Google login error:" (Some err);;
          throw err)).

Definition logout : M unit :=
  try_catch signOut
    (λ err, console_error "Logout error:" (Some err);; throw err).

(** The value handed to [AuthContext.Provider] at a render in world [w]. *)
Definition AuthProvider (w : World) : AuthContextType.t := {|
  AuthContextType.user := user w;
  AuthContextType.authReady := authReady w;
  AuthContextType.login := login;
  AuthContextType.signup := signup;
  AuthContextType.loginWithGoogle := loginWithGoogle;
  AuthContextType.logout := logout;
|}.

(** *** Component lifetime *)

(** What can happen to a mounted provider: the platform delivers a
    session-change notification, or a consumer calls one of the actions. *)
Inductive Stimulus : Type :=
| Notify (firebaseUser : option User)
| CallLogin (email password : string)
| CallSignup (email password : string)
| CallLoginWithGoogle
| CallLogout.

Definition perform (s : Stimulus) : M unit :=
  match s with
  | Notify fu => onAuthStateChanged fu
  | CallLogin e p => login e p
  | CallSignup e p => signup e p
  | CallLoginWithGoogle => loginWithGoogle
  | CallLogout => logout
  end.

Definition after (s : Stimulus) (w : World) : World := (perform s w).2.

Fixpoint run (ss : list Stimulus) (w : World) : World :=
  match ss with
  | [] => w
  | s :: ss' => run ss' (after s w)
  end.


(** [useState(null)], [useState(false)] over whatever the database holds. *)
Definition mount (db : gmap (string * string) (gmap string Js.value)) : World :=
  {| firestore := db; user := None; authReady := false; trace := [] |}.

Definition reachable (w : World) : Prop :=
  ∃ db ss, w = run ss (mount db).

End AuthProvider.


(** ** Reading the log *)

(** The events logged between an earlier world and a later one. *)
Definition since (w w' : World) : list Event :=
  drop (length (trace w)) (trace w').

(** Calls of [setDoc] and of [getDoc] in a log, in order, whether they
    resolved or rejected. *)
Definition writes (t : list Event) : list ((string * string) * gmap string Js.value) :=
  omap (λ e, match e with ESetDoc r d => Some (r, d) | _ => None end) t.

Definition reads (t : list Event) : list (string * string) :=
  omap (λ e, match e with EGetDoc r => Some r | _ => None end) t.

(** Values handed to [setUser] and to [setAuthReady]. *)
Definition published (t : list Event) : list (option ExtendedUser) :=
  omap (λ e, match e with ESetUser u => Some u | _ => None end) t.

Definition readied (t : list Event) : list bool :=
  omap (λ e, match e with ESetAuthReady b => Some b | _ => None end) t.

(** Lines written with [console.error]: the label and the error object
    passed along, if any. *)
Definition console (t : list Event) : list (string * option Js.thrown) :=
  omap (λ e, match e with EConsoleError l err => Some (l, err) | _ => None end) t.

(** Calls into the identity platform. *)
Definition platform_calls (t : list Event) : list Event :=
  omap (λ e, match e with
             | ESignInWithEmailAndPassword _ _ | ECreateUserWithEmailAndPassword _ _
             | ESignInWithPopup | ESignOut => Some e
             | _ => None
             end) t.

(** The identity-platform call an action stands for; a notification stands
    for none. *)
Definition call_of (s : Stimulus) : list Event :=
  match s with
  | Notify _ => []
  | CallLogin mail password => [ESignInWithEmailAndPassword mail password]
  | CallSignup mail password => [ECreateUserWithEmailAndPassword mail password]
  | CallLoginWithGoogle => [ESignInWithPopup]
  | CallLogout => [ESignOut]
  end.

(** Notifications that report a signed-in user. *)
Definition reports_user (s : Stimulus) : bool :=
  match s with
  | Notify None => false
  | _ => true
  end.

(** The shape [{ id, email, role }] of a Role Record; the identifier is
    stored under the field name [uid]. *)
Definition RoleRecord (id : string) (mail role : Js.value) : gmap string Js.value :=
  <["uid" := Js.Str id]> (<["email" := mail]> (<["role" := role]> ∅)).
Arguments RoleRecord : simpl never.

(** Edges of a boolean signal. *)
Fixpoint rising_edges (bs : list bool) : nat :=
  match bs with
  | [] => 0
  | b :: rest =>
      match rest with
      | [] => 0
      | b' :: _ => (if negb b && b' then 1 else 0) + rising_edges rest
      end
  end.

Fixpoint falling_edges (bs : list bool) : nat :=
  match bs with
  | [] => 0
  | b :: rest =>
      match rest with
      | [] => 0
      | b' :: _ => (if b && negb b' then 1 else 0) + falling_edges rest
      end
  end.

Definition is_notification (s : Stimulus) : bool :=
  match s with
  | Notify _ => true
  | _ => false
  end.


(** A role that is set, and not to a falsy value. *)
Definition role_resolved (u : ExtendedUser) : Prop :=
  ∃ r, role u = Some r ∧ Js.truthy r = true.

(** The user in the state has a resolved role and a stored Role Record. *)
Definition user_reconciled (w : World) : Prop :=
  ∀ u, user w = Some u →
    role_resolved u ∧ is_Some (firestore w !! doc "users" (uid (spread u))).

(** ** Sample oracles and inputs *)

Module Sample.

Definition alice : User :=
  {| uid := "u1"; email := Some "a@x.com"; displayName := None;
     emailVerified := false |}.

Definition new_user (mail : string) : User :=
  {| uid := String.append "id-" mail; email := Some mail; displayName := None;
     emailVerified := false |}.

(** Every call resolves. *)
Definition online : Firebase := {|
  getDoc_rejects := λ _ _, None;
  setDoc_rejects := λ _ _ _, None;
  signInWithEmailAndPassword_result := λ _ _ _, Ok {| cred_user := alice |};
  createUserWithEmailAndPassword_result := λ _ mail _, Ok {| cred_user := new_user mail |};
  signInWithPopup_result := λ _, Ok {| cred_user := alice |};
  signOut_rejects := λ _, None;
|}.

Definition unavailable : Js.thrown :=
  Js.FirebaseError "unavailable" "The service is currently unavailable.".

(** Firestore reads resolve, writes reject; the browser blocks pop-ups. *)
Definition read_only : Firebase := {|
  getDoc_rejects := λ _ _, None;
  setDoc_rejects := λ _ _ _, Some unavailable;
  signInWithEmailAndPassword_result := λ _ _ _, Throw (Js.FirebaseError "auth/wrong-password" "");
  createUserWithEmailAndPassword_result := λ _ _ _, Throw (Js.FirebaseError "auth/email-already-in-use" "");
  signInWithPopup_result := λ _, Throw (Js.FirebaseError "auth/popup-blocked" "");
  signOut_rejects := λ _, Some (Js.Error "network");
|}.

(** Firestore rejects every call. *)
Definition offline : Firebase := {|
  getDoc_rejects := λ _ _, Some unavailable;
  setDoc_rejects := λ _ _ _, Some unavailable;
  signInWithEmailAndPassword_result := λ _ _ _, Throw (Js.FirebaseError "auth/network-request-failed" "");
  createUserWithEmailAndPassword_result := λ _ _ _, Throw (Js.FirebaseError "auth/network-request-failed" "");
  signInWithPopup_result := λ _, Throw (Js.FirebaseError "auth/popup-closed-by-user" "");
  signOut_rejects := λ _, Some (Js.Error "network");
|}.

(** The first two calls of [setDoc] reject, later ones resolve. *)
Definition flaky : Firebase := {|
  getDoc_rejects := λ _ _, None;
  setDoc_rejects := λ t _ _, if Nat.ltb t 2 then Some unavailable else None;
  signInWithEmailAndPassword_result := λ _ _ _, Ok {| cred_user := alice |};
  createUserWithEmailAndPassword_result := λ _ mail _, Ok {| cred_user := new_user mail |};
  signInWithPopup_result := λ _, Ok {| cred_user := alice |};
  signOut_rejects := λ _, None;
|}.

(** Account creation answers with an identity that already has a record. *)
Definition reissued : Firebase := {|
  getDoc_rejects := λ _ _, None;
  setDoc_rejects := λ _ _ _, None;
  signInWithEmailAndPassword_result := λ _ _ _, Ok {| cred_user := alice |};
  createUserWithEmailAndPassword_result := λ _ _ _, Ok {| cred_user := alice |};
  signInWithPopup_result := λ _, Ok {| cred_user := alice |};
  signOut_rejects := λ _, None;
|}.

(** The double 7: mantissa [7 * 2^50], exponent [-50]. *)
Definition seven : spec_float := S754_finite false 7881299347898368 (-50).

(** A record with a numeric role and a field of its own. *)
Definition odd_db : gmap (string * string) (gmap string Js.value) :=
  {[ doc "users" "u1" := <["role" := Js.Num seven]> (<["team" := Js.Str "ops"]> ∅) ]}.

(** A record whose role is NaN. *)
Definition nan_db : gmap (string * string) (gmap string Js.value) :=
  {[ doc "users" "u1" := <["role" := Js.Num S754_nan]> ∅ ]}.

Definition admin_db : gmap (string * string) (gmap string Js.value) :=
  {[ doc "users" "u1" := RoleRecord "u1" (Js.Str "a@x.com") (Js.Str "admin") ]}.

End Sample.

(** ** Basic facts about the log *)

Section Log.

Lemma since_app (w w' : World) (d : list Event) :
  trace w' = trace w ++ d → since w w' = d.
Proof. unfold since. intros ->. apply drop_app_length. Qed.

Lemma since_refl (w : World) : since w w = [].
Proof. apply since_app. by rewrite app_nil_r. Qed.

End Log.

(** The log of a step is read off the world it ends in. *)
Ltac log_since :=
  erewrite since_app by (simpl; rewrite <- ?app_assoc; reflexivity).

(** The handler rejects with [e] exactly when one of the two store calls
    does, once the outcome of each call is known. *)
Ltac failure_iff :=
  split;
  [ intros [?|[? ?]]; congruence
  | intros ?; first [congruence | left; congruence | right; split; congruence] ].

(** Every way of cutting a known log around one of its events. *)
Ltac split_log pre :=
  repeat (destruct pre as [|? pre]; simplify_eq/=).

(** ** Equations of the component's operations *)

Section Equations.

Context (fb : Firebase).

Lemma onAuthStateChanged_absent (w : World) :
  onAuthStateChanged fb None w =
  (Ok (), write_authReady true (emit (ESetAuthReady true)
            (write_user None (emit (ESetUser None) w)))).
Proof. reflexivity. Qed.

Lemma fetchUserData_eq (firebaseUser : User) (w : World) :
  fetchUserData fb firebaseUser w =
  let userRef := doc "users" (uid firebaseUser) in
  let w1 := emit (EGetDoc userRef) w in
  match getDoc_rejects fb (now w) userRef with
  | Some e => (Throw e, w1)
  | None =>
      match firestore w !! userRef with
      | Some data =>
          let u := {| spread := firebaseUser;
                      role := Some (Js.or (data !! "role") (Js.Str "member")) |} in
          (Ok (), write_user (Some u) (emit (ESetUser (Some u)) w1))
      | None =>
          let record := RoleRecord (uid firebaseUser)
                          (Js.of_nullable (email firebaseUser)) (Js.Str "member") in
          let u := {| spread := firebaseUser; role := Some (Js.Str "member") |} in
          let w2 := emit (ESetDoc userRef record) w1 in
          match setDoc_rejects fb (now w1) userRef record with
          | Some e => (Throw e, w2)
          | None =>
              (Ok (), write_user (Some u)
                        (emit (ESetUser (Some u)) (write_doc userRef record w2)))
          end
      end
  end.
Proof.
  unfold fetchUserData, getDoc, setDoc, setUser, mbind, M_bind; simpl.
  destruct (getDoc_rejects fb (now w) _); [reflexivity|].
  destruct (firestore w !! _); [reflexivity|]. simpl.
  unfold RoleRecord.
  destruct (setDoc_rejects fb _ _ _); reflexivity.
Qed.

Lemma onAuthStateChanged_present (firebaseUser : User) (w : World) :
  onAuthStateChanged fb (Some firebaseUser) w =
  match fetchUserData fb firebaseUser w with
  | (Ok _, w') => (Ok (), write_authReady true (emit (ESetAuthReady true) w'))
  | (Throw e, w') => (Throw e, w')
  end.
Proof.
  unfold onAuthStateChanged, mbind, M_bind, setAuthReady.
  destruct (fetchUserData fb firebaseUser w) as [[[]|e] w']; reflexivity.
Qed.

Lemma login_eq (mail password : string) (w : World) :
  login fb mail password w =
  let w1 := emit (ESignInWithEmailAndPassword mail password) w in
  match signInWithEmailAndPassword_result fb (now w) mail password with
  | Ok _ => (Ok (), w1)
  | Throw e => (Throw e, emit (EConsoleError "Login error:" (Some e)) w1)
  end.
Proof.
  unfold login, try_catch, signInWithEmailAndPassword, mbind, M_bind; simpl.
  destruct (signInWithEmailAndPassword_result fb _ _ _); reflexivity.
Qed.

Lemma signup_eq (mail password : string) (w : World) :
  signup fb mail password w =
  let w1 := emit (ECreateUserWithEmailAndPassword mail password) w in
  match createUserWithEmailAndPassword_result fb (now w) mail password with
  | Throw e => (Throw e, emit (EConsoleError "Signup error:" (Some e)) w1)
  | Ok cred =>
      let userRef := doc "users" (uid (cred_user cred)) in
      let record := RoleRecord (uid (cred_user cred)) (Js.Str mail) (Js.Str "member") in
      let w2 := emit (ESetDoc userRef record) w1 in
      match setDoc_rejects fb (now w1) userRef record with
      | Some e => (Throw e, emit (EConsoleError "Signup error:" (Some e)) w2)
      | None => (Ok (), write_doc userRef record w2)
      end
  end.
Proof.
  unfold signup, try_catch, createUserWithEmailAndPassword, setDoc, mbind, M_bind; simpl.
  destruct (createUserWithEmailAndPassword_result fb _ _ _) as [cred|e]; [|reflexivity].
  unfold RoleRecord.
  destruct (setDoc_rejects fb _ _ _); reflexivity.
Qed.

Lemma loginWithGoogle_eq (w : World) :
  loginWithGoogle fb w =
  let w1 := emit ESignInWithPopup w in
  match signInWithPopup_result fb (now w) with
  | Ok _ => (Ok (), w1)
  | Throw e =>
      if popup_blocked e then
        (Throw (Js.Error
           "Google login failed: Your browser blocked the sign-in pop-up. Please allow pop-ups for this site or try again."),
         emit (EConsoleError
           "Google login failed: Pop-up was blocked. Recommend switching to signInWithRedirect."
           None) w1)
      else (Throw e, emit (EConsoleError "Google login error:" (Some e)) w1)
  end.
Proof.
  unfold loginWithGoogle, try_catch, signInWithPopup, mbind, M_bind; simpl.
  destruct (signInWithPopup_result fb _) as [cred|e]; [reflexivity|].
  destruct (popup_blocked e); reflexivity.
Qed.

Lemma logout_eq (w : World) :
  logout fb w =
  let w1 := emit ESignOut w in
  match signOut_rejects fb (now w) with
  | None => (Ok (), w1)
  | Some e => (Throw e, emit (EConsoleError "Logout error:" (Some e)) w1)
  end.
Proof.
  unfold logout, try_catch, signOut.
  destruct (signOut_rejects fb _); reflexivity.
Qed.

End Equations.

(** ** Role reconciliation in the session-change handler *)

Lemma RoleRecord_fields (id : string) (mail r : Js.value) :
  RoleRecord id mail r !! "uid" = Some (Js.Str id) ∧
  RoleRecord id mail r !! "email" = Some mail ∧
  RoleRecord id mail r !! "role" = Some r ∧
  dom (RoleRecord id mail r) = ({["uid"; "email"; "role"]} : gset string).
Proof.
  unfold RoleRecord.
  split_and!; [by simplify_map_eq | by simplify_map_eq | by simplify_map_eq | ].
  rewrite !dom_insert_L, dom_empty_L. set_solver.
Qed.

Lemma Js_or_truthy (a : option Js.value) (d : Js.value) :
  Js.truthy d = true → Js.truthy (Js.or a d) = true.
Proof.
  intros Hd. unfold Js.or. destruct a as [v|]; [|done].
  destruct (Js.truthy v) eqn:Hv; done.
Qed.

(** C3.  A notification that reports no session sets the user to null and
    the readiness flag to true, always resolves, and touches neither the
    document store nor the identity platform. *)
Theorem absent_notification_clears_user (fb : Firebase) (w : World) :
  let w' := after fb (Notify None) w in
  onAuthStateChanged fb None w = (Ok (), w') ∧
  user w' = None ∧
  authReady w' = true ∧
  since w w' = [ESetUser None; ESetAuthReady true] ∧
  reads (since w w') = [] ∧
  writes (since w w') = [] ∧
  firestore w' = firestore w.
Proof.
  intros w'. subst w'. unfold after. simpl perform.
  rewrite onAuthStateChanged_absent. simpl.
  log_since. done.
Qed.

(** C1.  A notification for a present user without a Role Record: when the
    handler runs to completion, exactly one document write was made, to
    [users/<uid>], of the record [{uid, email, role: "member"}], and the user
    published carries role ["member"].  Whatever the document store answers,
    no second write is attempted and nothing but that user is published, and
    only once the record is stored. *)
Theorem lazy_create_once (fb : Firebase) (firebaseUser : User) (w : World) :
  let userRef := doc "users" (uid firebaseUser) in
  let record := RoleRecord (uid firebaseUser)
                  (Js.of_nullable (email firebaseUser)) (Js.Str "member") in
  let member := {| spread := firebaseUser; role := Some (Js.Str "member") |} in
  let w' := after fb (Notify (Some firebaseUser)) w in
  firestore w !! userRef = None →
  (fulfilled (onAuthStateChanged fb (Some firebaseUser) w) →
     writes (since w w') = [(userRef, record)] ∧
     reads (since w w') = [userRef] ∧
     firestore w' = <[userRef := record]> (firestore w) ∧
     published (since w w') = [Some member] ∧
     user w' = Some member ∧
     authReady w' = true) ∧
  (length (writes (since w w')) ≤ 1)%nat ∧
  (∀ x, x ∈ writes (since w w') → x = (userRef, record)) ∧
  (∀ u, u ∈ published (since w w') →
     u = Some member ∧ firestore w' !! userRef = Some record).
Proof.
  intros userRef record member w' Hnone. subst w'.
  unfold after. simpl perform.
  rewrite onAuthStateChanged_present, fetchUserData_eq. simpl.
  fold userRef record member. rewrite Hnone.
  destruct (getDoc_rejects fb (now w) userRef) as [e|] eqn:Hget.
  { simpl. log_since. simpl.
    split_and!; [by intros [a Ha] | lia | by intros ? ?%elem_of_nil..]. }
  destruct (setDoc_rejects fb _ userRef record) as [e|] eqn:Hset.
  { simpl. log_since. simpl.
    split_and!; [by intros [a Ha] | lia | by intros ? ->%list_elem_of_singleton
                | by intros ? ?%elem_of_nil]. }
  simpl. log_since. simpl.
  split_and!; [done | lia | by intros ? ->%list_elem_of_singleton | ].
  intros u ->%list_elem_of_singleton. by rewrite lookup_insert_eq.
Qed.

Lemma lazy_create_once_witness :
  let w' := after Sample.online (Notify (Some Sample.alice)) (mount ∅) in
  writes (since (mount ∅) w')
  = [(doc "users" "u1", RoleRecord "u1" (Js.Str "a@x.com") (Js.Str "member"))] ∧
  user w' = Some {| spread := Sample.alice; role := Some (Js.Str "member") |}.
Proof.
  pose proof (lazy_create_once Sample.online Sample.alice (mount ∅)) as H.
  simpl in H. destruct (H eq_refl) as [Hdone _].
  destruct Hdone as (Hw & _ & _ & _ & Hu & _).
  - exists (). reflexivity.
  - split; [exact Hw | exact Hu].
Defined.

(** C2.  A notification for a present user whose Role Record exists, when
    the handler runs to completion: the user published carries the record's
    [role] when that is a non-empty string (so ["admin"] gives ["admin"]),
    and ["member"] when the field is missing or the empty string; the role is
    never a falsy value.  The record is read and not written. *)
Theorem existing_record_role (fb : Firebase) (firebaseUser : User) (w : World)
    (data : gmap string Js.value) :
  let userRef := doc "users" (uid firebaseUser) in
  let w' := after fb (Notify (Some firebaseUser)) w in
  firestore w !! userRef = Some data →
  fulfilled (onAuthStateChanged fb (Some firebaseUser) w) →
  ∃ r : Js.value,
    user w' = Some {| spread := firebaseUser; role := Some r |} ∧
    published (since w w') = [Some {| spread := firebaseUser; role := Some r |}] ∧
    reads (since w w') = [userRef] ∧
    writes (since w w') = [] ∧
    firestore w' = firestore w ∧
    Js.truthy r = true ∧
    (∀ s, data !! "role" = Some (Js.Str s) → s ≠ "" → r = Js.Str s) ∧
    (data !! "role" = Some (Js.Str "admin") → r = Js.Str "admin") ∧
    (data !! "role" = None → r = Js.Str "member") ∧
    (data !! "role" = Some (Js.Str "") → r = Js.Str "member").
Proof.
  intros userRef w' Hdata. subst w'. unfold after. simpl perform.
  rewrite onAuthStateChanged_present, fetchUserData_eq. simpl.
  fold userRef. rewrite Hdata.
  destruct (getDoc_rejects fb (now w) userRef) as [e|] eqn:Hget.
  { by intros [a Ha]. }
  intros _. simpl.
  exists (Js.or (data !! "role") (Js.Str "member")).
  log_since. simpl.
  split_and!; try done.
  - by apply Js_or_truthy.
  - intros s -> Hs. simpl.
    destruct (String.eqb s "") eqn:E; [|done].
    by apply String.eqb_eq in E.
  - by intros ->.
  - by intros ->.
  - by intros ->.
Qed.

Lemma existing_record_role_witness :
  user (after Sample.online (Notify (Some Sample.alice)) (mount Sample.admin_db))
  = Some {| spread := Sample.alice; role := Some (Js.Str "admin") |}.
Proof.
  destruct (existing_record_role Sample.online Sample.alice
              (mount Sample.admin_db)
              (RoleRecord "u1" (Js.Str "a@x.com") (Js.Str "admin")))
    as (r & Hu & _ & _ & _ & _ & _ & _ & Hadmin & _).
  - reflexivity.
  - exists (). reflexivity.
  - rewrite Hu, Hadmin; reflexivity.
Defined.

(** ** The actions *)

(** C4.  Once the account-creation call of [signup] has resolved, the very
    next effect, with no notification handled in between, is one write of
    [{uid, email, role: "member"}] to [users/<uid>] of the new identity; a
    signup that resolves has stored that record.  The record has the fields
    and the role of the one the session-change handler creates for a user
    without a record, and is the same record when the handler sees the same
    identifier and email. *)
Theorem signup_writes_member_record (fb : Firebase) (mail password : string)
    (w : World) :
  let w' := after fb (CallSignup mail password) w in
  let created (cred : UserCredential) :=
    (createUserWithEmailAndPassword fb mail password w).1 = Ok cred in
  let userRef (cred : UserCredential) := doc "users" (uid (cred_user cred)) in
  let record (cred : UserCredential) :=
    RoleRecord (uid (cred_user cred)) (Js.Str mail) (Js.Str "member") in
  (∀ cred, created cred →
     take 2 (since w w')
     = [ECreateUserWithEmailAndPassword mail password;
        ESetDoc (userRef cred) (record cred)] ∧
     writes (since w w') = [(userRef cred, record cred)] ∧
     record cred !! "role" = Some (Js.Str "member")) ∧
  (fulfilled (signup fb mail password w) →
   ∃ cred, created cred ∧
     since w w' = [ECreateUserWithEmailAndPassword mail password;
                   ESetDoc (userRef cred) (record cred)] ∧
     firestore w' = <[userRef cred := record cred]> (firestore w)) ∧
  (∀ cred (fb2 : Firebase) (firebaseUser : User) (w2 : World),
     firestore w2 !! doc "users" (uid firebaseUser) = None →
     fulfilled (onAuthStateChanged fb2 (Some firebaseUser) w2) →
     ∃ lazy : gmap string Js.value,
       writes (since w2 (after fb2 (Notify (Some firebaseUser)) w2))
       = [(doc "users" (uid firebaseUser), lazy)] ∧
       dom lazy = dom (record cred) ∧
       lazy !! "role" = record cred !! "role" ∧
       (uid firebaseUser = uid (cred_user cred) →
        email firebaseUser = Some mail → lazy = record cred)).
Proof.
  intros w' created userRef record. subst w' created userRef record.
  unfold after. simpl perform.
  rewrite signup_eq. unfold createUserWithEmailAndPassword. simpl.
  split_and!.
  - intros cred ->.
    destruct (setDoc_rejects fb _ _ _) as [e|] eqn:Hset; simpl; log_since; done.
  - destruct (createUserWithEmailAndPassword_result fb (now w) mail password)
      as [cred|e] eqn:Hcreate; [|by intros [a Ha]].
    destruct (setDoc_rejects fb _ _ _) as [e|] eqn:Hset; [by intros [a Ha]|].
    intros _. exists cred. simpl. log_since. done.
  - intros cred fb2 fu w2 Hnone.
    rewrite onAuthStateChanged_present, fetchUserData_eq. simpl. rewrite Hnone.
    destruct (getDoc_rejects fb2 (now w2) _) as [e|]; [by intros [a Ha]|].
    destruct (setDoc_rejects fb2 _ _ _) as [e|]; [by intros [a Ha]|].
    intros _. simpl.
    exists (RoleRecord (uid fu) (Js.of_nullable (email fu)) (Js.Str "member")).
    log_since. simpl. split_and!; try done.
    intros Hu He. by rewrite Hu, He.
Qed.

Lemma signup_writes_member_record_witness :
  since (mount ∅) (after Sample.online (CallSignup "a@x.com" "pw") (mount ∅))
  = [ECreateUserWithEmailAndPassword "a@x.com" "pw";
     ESetDoc (doc "users" "id-a@x.com")
       (RoleRecord "id-a@x.com" (Js.Str "a@x.com") (Js.Str "member"))] ∧
  writes (since (mount ∅) (after Sample.online (CallSignup "a@x.com" "pw") (mount ∅)))
  = [(doc "users" "id-a@x.com",
      RoleRecord "id-a@x.com" (Js.Str "a@x.com") (Js.Str "member"))].
Proof.
  pose proof (signup_writes_member_record Sample.online "a@x.com" "pw" (mount ∅))
    as (Hnext & Hdone & Hsame).
  split.
  - destruct Hdone as (cred & Hcred & Hlog & _).
    + exists (). reflexivity.
    + injection Hcred as <-. exact Hlog.
  - destruct (Hnext {| cred_user := Sample.new_user "a@x.com" |}) as (_ & Hw & _).
    + reflexivity.
    + exact Hw.
Defined.

(** C5.  [loginWithGoogle] rejects exactly when the pop-up sign-in rejects.
    When that rejection is a FirebaseError with code [auth/popup-blocked],
    what is thrown is a new Error whose message tells the user to allow
    pop-ups or try again, and which is not the platform's error; any other
    rejection is thrown again as it is. *)
Theorem loginWithGoogle_failure_classification (fb : Firebase) (w : World) :
  let advice :=
    "Google login failed: Your browser blocked the sign-in pop-up. Please allow pop-ups for this site or try again." in
  ((∃ e, rejected (loginWithGoogle fb w) e) ↔
   (∃ e, rejected (signInWithPopup fb w) e)) ∧
  (∀ m, rejected (signInWithPopup fb w) (Js.FirebaseError "auth/popup-blocked" m) →
     rejected (loginWithGoogle fb w) (Js.Error advice) ∧
     Js.Error advice ≠ Js.FirebaseError "auth/popup-blocked" m ∧
     Js.includes (Js.message (Js.Error advice)) "allow pop-ups" = true ∧
     Js.includes (Js.message (Js.Error advice)) "try again" = true) ∧
  (∀ e, rejected (signInWithPopup fb w) e →
     (∀ m, e ≠ Js.FirebaseError "auth/popup-blocked" m) →
     rejected (loginWithGoogle fb w) e).
Proof.
  intros advice. unfold rejected. rewrite loginWithGoogle_eq.
  unfold signInWithPopup. simpl.
  destruct (signInWithPopup_result fb (now w)) as [cred|e0] eqn:Hpop.
  { split_and!.
    - split; intros [e He]; discriminate.
    - intros m Hm; discriminate.
    - intros e He; discriminate. }
  split_and!.
  - split; intros _; [by exists e0|].
    destruct (popup_blocked e0); eexists; reflexivity.
  - intros m [= ->]. simpl. split_and!; try done.
  - intros e [= ->] Hne.
    destruct (popup_blocked e) eqn:Hb; [|reflexivity].
    exfalso. unfold popup_blocked in Hb.
    destruct e as [c m| |]; simpl in Hb; try discriminate.
    apply bool_decide_eq_true in Hb. injection Hb as ->.
    by apply (Hne m).
Qed.

Lemma loginWithGoogle_failure_classification_witness :
  rejected (loginWithGoogle Sample.read_only (mount ∅))
    (Js.Error
       "Google login failed: Your browser blocked the sign-in pop-up. Please allow pop-ups for this site or try again.") ∧
  rejected (loginWithGoogle Sample.offline (mount ∅))
    (Js.FirebaseError "auth/popup-closed-by-user" "").
Proof.
  split.
  - apply (proj1 (proj2 (loginWithGoogle_failure_classification Sample.read_only (mount ∅))) "").
    reflexivity.
  - apply (proj2 (proj2 (loginWithGoogle_failure_classification Sample.offline (mount ∅)))).
    + reflexivity.
    + intros m. discriminate.
Defined.

(** What an action leaves behind: nothing but platform calls, at most one
    document write, and console output. *)
Lemma action_frame (fb : Firebase) (s : Stimulus) (w : World) :
  is_notification s = false →
  user (after fb s w) = user w ∧
  authReady (after fb s w) = authReady w ∧
  published (since w (after fb s w)) = [] ∧
  readied (since w (after fb s w)) = [].
Proof.
  intros Hs. destruct s as [fu|mail pw|mail pw| |]; try discriminate;
    unfold after; simpl perform.
  - rewrite login_eq. simpl.
    destruct (signInWithEmailAndPassword_result fb _ _ _); simpl;
      log_since; done.
  - rewrite signup_eq. simpl.
    destruct (createUserWithEmailAndPassword_result fb _ _ _); simpl;
      [destruct (setDoc_rejects fb _ _ _); simpl|];
      log_since; done.
  - rewrite loginWithGoogle_eq. simpl.
    destruct (signInWithPopup_result fb _) as [cred|e]; simpl;
      [|destruct (popup_blocked e); simpl];
      log_since; done.
  - rewrite logout_eq. simpl.
    destruct (signOut_rejects fb _); simpl;
      log_since; done.
Qed.

(** C8.  Whether they resolve or reject, [login], [signup],
    [loginWithGoogle] and [logout] leave [user] and [authReady] as they were
    and call neither [setUser] nor [setAuthReady]; so whenever either cell
    changes, or either setter is called, a session-change notification is
    being handled. *)
Theorem actions_leave_state_alone (fb : Firebase) (s : Stimulus) (w : World) :
  let w' := after fb s w in
  (is_notification s = false →
     user w' = user w ∧ authReady w' = authReady w ∧
     published (since w w') = [] ∧ readied (since w w') = []) ∧
  (user w' ≠ user w ∨ authReady w' ≠ authReady w ∨
   published (since w w') ≠ [] ∨ readied (since w w') ≠ [] →
     ∃ firebaseUser, s = Notify firebaseUser).
Proof.
  intros w'. subst w'. split; [apply action_frame|].
  intros Hchg. destruct (is_notification s) eqn:Hn.
  - destruct s as [fu| | | |]; try discriminate. by exists fu.
  - exfalso. destruct (action_frame fb s w Hn) as (Hu & Hr & Hp & Hd).
    destruct Hchg as [H|[H|[H|H]]]; congruence.
Qed.

Lemma actions_leave_state_alone_witness :
  user (after Sample.online (CallSignup "a@x.com" "pw") (mount ∅)) = None ∧
  authReady (after Sample.offline CallLogout (mount ∅)) = false ∧
  ∃ firebaseUser, Notify None = Notify firebaseUser.
Proof.
  split_and!.
  - apply (proj1 (actions_leave_state_alone Sample.online
                    (CallSignup "a@x.com" "pw") (mount ∅))).
    reflexivity.
  - apply (proj1 (actions_leave_state_alone Sample.offline CallLogout (mount ∅))).
    reflexivity.
  - apply (proj2 (actions_leave_state_alone Sample.online (Notify None) (mount ∅))).
    right. left. simpl. discriminate.
Defined.

(** C9.  The handler for a present user rejects exactly when the read of the
    Role Record rejects, or the record is absent and the write rejects, and
    then with that same error.  In that case [user] and [authReady] keep
    their values, neither setter is called, the store is unchanged, and the
    failed call is not repeated. *)
Theorem reconciliation_failure_propagates (fb : Firebase) (firebaseUser : User)
    (w : World) (e : Js.thrown) :
  let userRef := doc "users" (uid firebaseUser) in
  let record := RoleRecord (uid firebaseUser)
                  (Js.of_nullable (email firebaseUser)) (Js.Str "member") in
  let w' := after fb (Notify (Some firebaseUser)) w in
  let read_fails := rejected (getDoc fb userRef w) e in
  let write_fails :=
    (getDoc fb userRef w).1 = Ok None ∧
    rejected (setDoc fb userRef record (getDoc fb userRef w).2) e in
  (read_fails ∨ write_fails ↔ rejected (onAuthStateChanged fb (Some firebaseUser) w) e) ∧
  (read_fails ∨ write_fails →
     user w' = user w ∧
     authReady w' = authReady w ∧
     published (since w w') = [] ∧
     readied (since w w') = [] ∧
     firestore w' = firestore w ∧
     (read_fails → since w w' = [EGetDoc userRef]) ∧
     (write_fails → since w w' = [EGetDoc userRef; ESetDoc userRef record])).
Proof.
  intros userRef record w' read_fails write_fails.
  subst w' read_fails write_fails. unfold after, rejected. simpl perform.
  rewrite onAuthStateChanged_present, fetchUserData_eq.
  unfold getDoc, setDoc. simpl. fold userRef record.
  destruct (getDoc_rejects fb (now w) userRef) as [e1|] eqn:Hget; simpl.
  { log_since. simpl.
    split; [failure_iff|].
    intros _. split_and!; try done. by intros [? _]. }
  destruct (firestore w !! userRef) as [data|] eqn:Hdoc; simpl.
  { split; [failure_iff|]. intros [?|[? _]]; discriminate. }
  destruct (setDoc_rejects fb _ userRef record) as [e2|] eqn:Hset; simpl.
  { log_since. simpl.
    split; [failure_iff|].
    intros _. split_and!; done. }
  split; [failure_iff|]. intros [?|[_ ?]]; discriminate.
Qed.

Lemma reconciliation_failure_propagates_witness :
  rejected (onAuthStateChanged Sample.offline (Some Sample.alice) (mount ∅))
    Sample.unavailable ∧
  authReady (after Sample.read_only (Notify (Some Sample.alice)) (mount ∅)) = false.
Proof.
  split.
  - apply (proj1 (reconciliation_failure_propagates Sample.offline Sample.alice
                    (mount ∅) Sample.unavailable)).
    left. reflexivity.
  - apply (proj2 (reconciliation_failure_propagates Sample.read_only Sample.alice
                    (mount ∅) Sample.unavailable)).
    right. split; reflexivity.
Defined.

(** C10.  Without an enclosing provider [useAuth] yields the default value
    of the context: no user, not ready, and four actions that resolve at once
    and leave the world exactly as it was, so with no platform call, no
    document-store access and no state change. *)
Theorem useAuth_outside_provider :
  let ctx := useAuth None in
  AuthContextType.user ctx = None ∧
  AuthContextType.authReady ctx = false ∧
  ∀ (w : World) (mail password : string),
    AuthContextType.login ctx mail password w = (Ok (), w) ∧
    AuthContextType.signup ctx mail password w = (Ok (), w) ∧
    AuthContextType.loginWithGoogle ctx w = (Ok (), w) ∧
    AuthContextType.logout ctx w = (Ok (), w) ∧
    since w (AuthContextType.login ctx mail password w).2 = [] ∧
    since w (AuthContextType.signup ctx mail password w).2 = [] ∧
    since w (AuthContextType.loginWithGoogle ctx w).2 = [] ∧
    since w (AuthContextType.logout ctx w).2 = [].
Proof.
  simpl. split_and!; try done.
  intros w mail password. rewrite since_refl. split_and!; done.
Qed.

(** Under a provider the same hook yields the provider's cells and its
    real actions. *)
Lemma useAuth_inside_provider (fb : Firebase) (w : World) :
  let ctx := useAuth (Some (AuthProvider fb w)) in
  AuthContextType.user ctx = user w ∧
  AuthContextType.authReady ctx = authReady w ∧
  AuthContextType.login ctx = login fb ∧
  AuthContextType.signup ctx = signup fb ∧
  AuthContextType.loginWithGoogle ctx = loginWithGoogle fb ∧
  AuthContextType.logout ctx = logout fb.
Proof. simpl. split_and!; reflexivity. Qed.

(** ** The readiness flag over a component lifetime *)

Section Readiness.

Context (fb : Firebase).

Lemma notification_outcome (firebaseUser : option User) (w : World) :
  let w' := after fb (Notify firebaseUser) w in
  (fulfilled (onAuthStateChanged fb firebaseUser w) ∧ authReady w' = true) ∨
  ((∃ e, rejected (onAuthStateChanged fb firebaseUser w) e) ∧
   authReady w' = authReady w ∧ user w' = user w ∧ firestore w' = firestore w).
Proof.
  unfold after, fulfilled, rejected. simpl perform.
  destruct firebaseUser as [fu|]; [|left; split; [by exists ()|reflexivity]].
  rewrite onAuthStateChanged_present, fetchUserData_eq. simpl.
  destruct (getDoc_rejects fb (now w) _) as [e|]; simpl.
  { right. split_and!; try done. by exists e. }
  destruct (firestore w !! _) as [data|]; simpl.
  { left. split; [by exists ()|reflexivity]. }
  destruct (setDoc_rejects fb _ _ _) as [e|]; simpl.
  { right. split_and!; try done. by exists e. }
  left. split; [by exists ()|reflexivity].
Qed.

Lemma authReady_stays (s : Stimulus) (w : World) :
  authReady w = true → authReady (after fb s w) = true.
Proof.
  intros Hw. destruct (is_notification s) eqn:Hn.
  - destruct s as [fu| | | |]; try discriminate.
    destruct (notification_outcome fu w) as [[_ H]|(_ & H & _)]; [done|].
    by rewrite H.
  - destruct (action_frame fb s w Hn) as (_ & H & _). by rewrite H.
Qed.





End Readiness.



Lemma edges_replicate_true (n : nat) :
  rising_edges (replicate n true) = 0 ∧ falling_edges (replicate n true) = 0.
Proof.
  induction n as [|n [IHr IHf]]; [done|].
  destruct n as [|n]; [done|]. simpl in *. by rewrite IHr, IHf.
Qed.

Lemma edges_false_then_true (n m : nat) :
  rising_edges (replicate (S n) false ++ replicate (S m) true) = 1 ∧
  falling_edges (replicate (S n) false ++ replicate (S m) true) = 0.
Proof.
  induction n as [|n [IHr IHf]].
  - destruct (edges_replicate_true (S m)) as [Hr Hf].
    change (replicate 1 false ++ replicate (S m) true)
      with (false :: replicate (S m) true).
    cbn [rising_edges falling_edges]. simpl replicate in *.
    cbn [negb andb]. by rewrite Hr, Hf.
  - change (replicate (S (S n)) false ++ replicate (S m) true)
      with (false :: (replicate (S n) false ++ replicate (S m) true)).
    remember (replicate (S n) false ++ replicate (S m) true) as l eqn:Hl.
    assert (∃ l', l = false :: l') as [l' ->] by (subst l; eexists; reflexivity).
    cbn [rising_edges falling_edges negb andb] in *. by rewrite IHr, IHf.
Qed.


Lemma authReady_run_stays (fb : Firebase) (ss : list Stimulus) (w : World) :
  authReady w = true → authReady (run fb ss w) = true.
Proof.
  revert w. induction ss as [|s ss IH]; intros w Hw; [done|].
  simpl. apply IH. by apply authReady_stays.
Qed.

Lemma authReady_rises_only_on_completion (fb : Firebase) (s : Stimulus) (w : World) :
  authReady w = false →
  (authReady (after fb s w) = true ↔
   ∃ firebaseUser, s = Notify firebaseUser ∧
     fulfilled (onAuthStateChanged fb firebaseUser w)).
Proof.
  intros Hw. destruct (is_notification s) eqn:Hn.
  - destruct s as [fu| | | |]; try discriminate.
    destruct (notification_outcome fb fu w) as [[Hdone Hr]|([e He] & Hr & _)].
    + split; [intros _; by exists fu|done].
    + split; [intros H; congruence|].
      intros (fu' & [= <-] & [a Ha]). unfold rejected in He. congruence.
  - destruct (action_frame fb s w Hn) as (_ & Hr & _).
    split; [intros H; congruence|].
    intros (fu & -> & _). discriminate.
Qed.

Lemma authReady_run_iff (fb : Firebase) (ss : list Stimulus) (w : World) :
  authReady w = false →
  (authReady (run fb ss w) = true ↔
   ∃ pre firebaseUser post,
     ss = pre ++ Notify firebaseUser :: post ∧
     fulfilled (onAuthStateChanged fb firebaseUser (run fb pre w))).
Proof.
  revert w. induction ss as [|s ss IH]; intros w Hw.
  - simpl. split; [congruence|].
    intros (pre & fu & post & H & _). by destruct pre.
  - simpl. destruct (authReady (after fb s w)) eqn:Hs.
    + rewrite authReady_run_stays by done.
      apply (authReady_rises_only_on_completion fb s w Hw) in Hs
        as (fu & -> & Hdone).
      split; [intros _|done]. by exists [], fu, ss.
    + rewrite (IH _ Hs). split.
      * intros (pre & fu & post & -> & Hdone). by exists (s :: pre), fu, post.
      * intros (pre & fu & post & Heq & Hdone).
        destruct pre as [|s' pre]; simpl in *; injection Heq as -> ->.
        -- assert (authReady (after fb (Notify fu) w) = true) as Ht
             by (apply authReady_rises_only_on_completion; eauto).
           congruence.
        -- by exists pre, fu, post.
Qed.












(** ** The published user always has a role *)

Section Invariant.

Context (fb : Firebase).

Lemma firestore_keeps_records (s : Stimulus) (w : World) (ref : string * string) :
  is_Some (firestore w !! ref) → is_Some (firestore (after fb s w) !! ref).
Proof.
  intros Hw. destruct s as [[fu|]|mail pw|mail pw| |]; unfold after; simpl perform.
  - destruct (notification_outcome fb (Some fu) w) as [[Hdone _]|(_ & _ & _ & H)];
      [|unfold after in H; simpl perform in H; by rewrite H].
    revert Hdone. rewrite onAuthStateChanged_present, fetchUserData_eq. simpl.
    destruct (getDoc_rejects fb (now w) _); [done|].
    destruct (firestore w !! doc "users" (uid fu)); [done|].
    destruct (setDoc_rejects fb _ _ _); [done|]. simpl. intros _.
    rewrite lookup_insert. by case_decide.
  - done.
  - rewrite login_eq. simpl.
    by destruct (signInWithEmailAndPassword_result fb _ _ _).
  - rewrite signup_eq. simpl.
    destruct (createUserWithEmailAndPassword_result fb _ _ _); [|done].
    destruct (setDoc_rejects fb _ _ _); [done|]. simpl.
    rewrite lookup_insert. by case_decide.
  - rewrite loginWithGoogle_eq. simpl.
    destruct (signInWithPopup_result fb _) as [cred|e]; [done|].
    by destruct (popup_blocked e).
  - rewrite logout_eq. simpl. by destruct (signOut_rejects fb _).
Qed.

Lemma user_reconciled_mount (db : gmap (string * string) (gmap string Js.value)) :
  user_reconciled (mount db).
Proof. intros u Hu. discriminate. Qed.

Lemma user_reconciled_after (s : Stimulus) (w : World) :
  user_reconciled w → user_reconciled (after fb s w).
Proof.
  intros Hinv u. destruct (is_notification s) eqn:Hn.
  - destruct s as [[fu|]| | | |]; try discriminate.
    unfold after. simpl perform.
    rewrite onAuthStateChanged_present, fetchUserData_eq. simpl.
    destruct (getDoc_rejects fb (now w) _); [apply Hinv|].
    destruct (firestore w !! doc "users" (uid fu)) as [data|] eqn:Hdoc; simpl.
    + intros [= <-]. simpl. split; [|by rewrite Hdoc].
      eexists. split; [reflexivity|]. by apply Js_or_truthy.
    + destruct (setDoc_rejects fb _ _ _); [apply Hinv|]. simpl.
      intros [= <-]. simpl. split; [by eexists|].
      by rewrite lookup_insert_eq.
  - destruct (action_frame fb s w Hn) as (Hu & _). rewrite Hu. intros Hsome.
    destruct (Hinv u Hsome) as [Hrole Hrec]. split; [done|].
    by apply firestore_keeps_records.
Qed.

Lemma user_reconciled_run (ss : list Stimulus) (w : World) :
  user_reconciled w → user_reconciled (run fb ss w).
Proof.
  revert w. induction ss as [|s ss IH]; intros w Hw; [done|].
  simpl. apply IH. by apply user_reconciled_after.
Qed.

End Invariant.

(** C7.  In every state reachable from mounting the provider, a user that is
    present has a role that is set and not falsy, and their Role Record is in
    the store.  And within any step, a call of [setUser] with a present user
    comes after the read of that user's record, and after the write of the
    record when there was none: a user whose read or write rejected is never
    published. *)
Theorem published_user_has_role (fb : Firebase) :
  (∀ w, reachable fb w → user_reconciled w) ∧
  (∀ (s : Stimulus) (w : World) (u : ExtendedUser) (pre post : list Event),
     let userRef := doc "users" (uid (spread u)) in
     since w (after fb s w) = pre ++ ESetUser (Some u) :: post →
     role_resolved u ∧
     reads pre = [userRef] ∧
     fulfilled (getDoc fb userRef w) ∧
     (firestore w !! userRef = None →
        ∃ record, writes pre = [(userRef, record)] ∧
          record !! "role" = role u ∧
          firestore (after fb s w) !! userRef = Some record)).
Proof.
  split.
  { intros w (db & ss & ->). apply user_reconciled_run, user_reconciled_mount. }
  intros s w u pre post userRef. subst userRef.
  destruct s as [[fu|]|mail pw|mail pw| |]; unfold after; simpl perform.
  - rewrite onAuthStateChanged_present, fetchUserData_eq.
    unfold fulfilled, getDoc. simpl.
    destruct (getDoc_rejects fb (now w) (doc "users" (uid fu))) as [e|] eqn:Hget.
    { log_since.
      intros H. split_log pre. }
    destruct (firestore w !! doc "users" (uid fu)) as [data|] eqn:Hdoc; simpl.
    { log_since.
      intros H. split_log pre. rewrite Hget, Hdoc. simpl.
      split_and!; try done; [|by eexists].
      eexists. split; [reflexivity|]. by apply Js_or_truthy. }
    destruct (setDoc_rejects fb _ _ _) as [e|] eqn:Hset; simpl.
    { log_since.
      intros H. split_log pre. }
    log_since.
    intros H. split_log pre. rewrite Hget. simpl.
    split_and!; try done; [by eexists|by eexists|].
    intros _. eexists. split_and!; [reflexivity| |by rewrite lookup_insert_eq].
    by destruct (RoleRecord_fields (uid fu) (Js.of_nullable (email fu)) (Js.Str "member"))
      as (_ & _ & -> & _).
  - rewrite onAuthStateChanged_absent. simpl.
    log_since.
    intros H. split_log pre.
  - rewrite login_eq. simpl.
    destruct (signInWithEmailAndPassword_result fb _ _ _); simpl;
      log_since;
      intros H; split_log pre.
  - rewrite signup_eq. simpl.
    destruct (createUserWithEmailAndPassword_result fb _ _ _); simpl;
      [destruct (setDoc_rejects fb _ _ _); simpl|];
      log_since;
      intros H; split_log pre.
  - rewrite loginWithGoogle_eq. simpl.
    destruct (signInWithPopup_result fb _) as [cred|e]; simpl;
      [|destruct (popup_blocked e); simpl];
      log_since;
      intros H; split_log pre.
  - rewrite logout_eq. simpl.
    destruct (signOut_rejects fb _); simpl;
      log_since;
      intros H; split_log pre.
Qed.

Lemma published_user_has_role_witness :
  user_reconciled
    (run Sample.online
       [CallSignup "a@x.com" "pw"; Notify (Some Sample.alice); CallLogout;
        Notify None; Notify (Some (Sample.new_user "a@x.com"))]
       (mount Sample.admin_db)) ∧
  role_resolved {| spread := Sample.alice; role := Some (Js.Str "member") |}.
Proof.
  split.
  - apply (proj1 (published_user_has_role Sample.online)).
    exists Sample.admin_db. eexists. reflexivity.
  - apply (proj2 (published_user_has_role Sample.online)
             (Notify (Some Sample.alice)) (mount ∅)
             {| spread := Sample.alice; role := Some (Js.Str "member") |}
             [EGetDoc (doc "users" "u1");
              ESetDoc (doc "users" "u1")
                (RoleRecord "u1" (Js.Str "a@x.com") (Js.Str "member"))]
             [ESetAuthReady true]).
    reflexivity.
Defined.

(** ** Further properties of the actions *)

(** X1.  [login] and [logout] hand on what the platform answers: they resolve
    when the platform call resolves and reject with the very error it
    rejected with; neither reads or writes the document store. *)
Theorem login_logout_relay (fb : Firebase) (mail password : string) (w : World) :
  (fulfilled (login fb mail password w) ↔
     fulfilled (signInWithEmailAndPassword fb mail password w)) ∧
  (∀ e, rejected (login fb mail password w) e ↔
     rejected (signInWithEmailAndPassword fb mail password w) e) ∧
  (fulfilled (logout fb w) ↔ fulfilled (signOut fb w)) ∧
  (∀ e, rejected (logout fb w) e ↔ rejected (signOut fb w) e) ∧
  firestore (after fb (CallLogin mail password) w) = firestore w ∧
  firestore (after fb CallLogout w) = firestore w ∧
  reads (since w (after fb (CallLogin mail password) w)) = [] ∧
  writes (since w (after fb (CallLogin mail password) w)) = [] ∧
  reads (since w (after fb CallLogout w)) = [] ∧
  writes (since w (after fb CallLogout w)) = [].
Proof.
  unfold after, fulfilled, rejected. simpl perform.
  rewrite login_eq, logout_eq. unfold signInWithEmailAndPassword, signOut. simpl.
  destruct (signInWithEmailAndPassword_result fb (now w) mail password) as [c|e1];
    destruct (signOut_rejects fb (now w)) as [e2|]; simpl;
    repeat log_since; simpl;
    split_and!; try done;
    try (split; intros [a Ha]; first [discriminate | by exists () | by exists c]);
    try (intros e; split; intros He; congruence).
Qed.

Lemma login_logout_relay_witness :
  rejected (login Sample.read_only "a@x.com" "pw" (mount ∅))
    (Js.FirebaseError "auth/wrong-password" "") ∧
  fulfilled (logout Sample.online (mount ∅)).
Proof.
  split.
  - apply (proj1 (proj2 (login_logout_relay Sample.read_only "a@x.com" "pw" (mount ∅)))).
    reflexivity.
  - apply (proj1 (proj2 (proj2 (login_logout_relay Sample.online "" "" (mount ∅))))).
    exists (). reflexivity.
Defined.

(** X2.  [signup] rejects with [e] exactly when account creation rejects with [e],
    or the account is created and the write of its record rejects with [e].
    In the first case no write is attempted.  In the second the account
    exists on the platform but no record is stored: the write is attempted
    once, nothing is undone on the platform, and the store is unchanged. *)
Theorem signup_rejections (fb : Firebase) (mail password : string) (w : World)
    (e : Js.thrown) :
  let w' := after fb (CallSignup mail password) w in
  let creation_fails :=
    rejected (createUserWithEmailAndPassword fb mail password w) e in
  let write_fails (cred : UserCredential) :=
    (createUserWithEmailAndPassword fb mail password w).1 = Ok cred ∧
    rejected (setDoc fb (doc "users" (uid (cred_user cred)))
                (RoleRecord (uid (cred_user cred)) (Js.Str mail) (Js.Str "member"))
                (createUserWithEmailAndPassword fb mail password w).2) e in
  (rejected (signup fb mail password w) e ↔
     creation_fails ∨ ∃ cred, write_fails cred) ∧
  (creation_fails →
     since w w' = [ECreateUserWithEmailAndPassword mail password;
                   EConsoleError "Signup error:" (Some e)] ∧
     firestore w' = firestore w) ∧
  (∀ cred, write_fails cred →
     since w w' = [ECreateUserWithEmailAndPassword mail password;
                   ESetDoc (doc "users" (uid (cred_user cred)))
                     (RoleRecord (uid (cred_user cred)) (Js.Str mail) (Js.Str "member"));
                   EConsoleError "Signup error:" (Some e)] ∧
     firestore w' = firestore w).
Proof.
  intros w' creation_fails write_fails. subst w' creation_fails write_fails.
  unfold after, rejected. simpl perform.
  rewrite signup_eq. unfold createUserWithEmailAndPassword, setDoc. simpl.
  destruct (createUserWithEmailAndPassword_result fb (now w) mail password)
    as [cred|e1] eqn:Hcreate; simpl.
  - destruct (setDoc_rejects fb _ _ _) as [e2|] eqn:Hset; simpl; log_since.
    + split_and!.
      * split; [intros He; right; exists cred; split; [done|] |
                intros [He|(c & [= <-] & He)]; [discriminate|]].
        -- rewrite Hset. simpl. congruence.
        -- rewrite Hset in He. simpl in He. congruence.
      * discriminate.
      * intros c [[= <-] He]. rewrite Hset in He. simpl in He.
        injection He as ->. done.
    + split_and!.
      * split; [discriminate | intros [He|(c & [= <-] & He)]; [discriminate|]].
        rewrite Hset in He. discriminate.
      * discriminate.
      * intros c [[= <-] He]. rewrite Hset in He. discriminate.
  - log_since. split_and!.
    + split; [intros He; left; congruence |
              intros [He|(c & Hc & _)]; [congruence|discriminate]].
    + intros [= ->]. done.
    + intros c [Hc _]. discriminate.
Qed.

Lemma signup_rejections_witness :
  rejected (signup Sample.read_only "a@x.com" "pw" (mount ∅))
    (Js.FirebaseError "auth/email-already-in-use" "") ∧
  firestore (after Sample.flaky (CallSignup "a@x.com" "pw") (mount ∅)) = ∅.
Proof.
  pose proof (signup_rejections Sample.read_only "a@x.com" "pw" (mount ∅)
                (Js.FirebaseError "auth/email-already-in-use" "")) as (Hiff & _ & _).
  pose proof (signup_rejections Sample.flaky "a@x.com" "pw" (mount ∅)
                Sample.unavailable) as (_ & _ & Hwrite).
  split.
  - apply Hiff. left. reflexivity.
  - destruct (Hwrite {| cred_user := Sample.new_user "a@x.com" |}) as [_ Hdb].
    + split; reflexivity.
    + exact Hdb.
Defined.

(** X3.  Every action starts with its one call into the identity platform and
    makes no other, whether it resolves or rejects; handling a notification
    makes none. *)
Theorem one_platform_call (fb : Firebase) (s : Stimulus) (w : World) :
  platform_calls (since w (after fb s w)) = call_of s ∧
  take (length (call_of s)) (since w (after fb s w)) = call_of s.
Proof.
  destruct s as [[fu|]|mail pw|mail pw| |]; unfold after; simpl perform.
  - rewrite onAuthStateChanged_present, fetchUserData_eq. simpl.
    destruct (getDoc_rejects fb (now w) _); simpl; [log_since; done|].
    destruct (firestore w !! _); simpl; [log_since; done|].
    destruct (setDoc_rejects fb _ _ _); simpl; log_since; done.
  - rewrite onAuthStateChanged_absent. simpl. log_since. done.
  - rewrite login_eq. simpl.
    destruct (signInWithEmailAndPassword_result fb _ _ _); simpl; log_since; done.
  - rewrite signup_eq. simpl.
    destruct (createUserWithEmailAndPassword_result fb _ _ _); simpl;
      [destruct (setDoc_rejects fb _ _ _); simpl|]; log_since; done.
  - rewrite loginWithGoogle_eq. simpl.
    destruct (signInWithPopup_result fb _) as [cred|e]; simpl;
      [|destruct (popup_blocked e); simpl]; log_since; done.
  - rewrite logout_eq. simpl.
    destruct (signOut_rejects fb _); simpl; log_since; done.
Qed.

(** X4.  An action that resolves writes nothing to the console.  An action
    that rejects writes exactly one line: its own label with the error it
    rejects with.  [loginWithGoogle] writes the line about the blocked pop-up,
    with no error object, exactly when the platform rejected with a
    FirebaseError of code [auth/popup-blocked], and otherwise its usual label
    with the platform's error.  A notification handler writes nothing, also
    when it rejects. *)
Theorem console_discipline (fb : Firebase) (s : Stimulus) (w : World) :
  let out := console (since w (after fb s w)) in
  (is_notification s = true → out = []) ∧
  (fulfilled (perform fb s w) → out = []) ∧
  (∀ e, rejected (perform fb s w) e →
     match s with
     | Notify _ => out = []
     | CallLogin _ _ => out = [("Login error:", Some e)]
     | CallSignup _ _ => out = [("Signup error:", Some e)]
     | CallLogout => out = [("Logout error:", Some e)]
     | CallLoginWithGoogle =>
         ((∃ m, rejected (signInWithPopup fb w)
                  (Js.FirebaseError "auth/popup-blocked" m)) ∧
          out = [("Google login failed: Pop-up was blocked. Recommend switching to signInWithRedirect.",
                  None)]) ∨
         (rejected (signInWithPopup fb w) e ∧
          (∀ m, e ≠ Js.FirebaseError "auth/popup-blocked" m) ∧
          out = [("Google login error:", Some e)])
     end).
Proof.
  intros out. subst out. unfold fulfilled, rejected.
  destruct s as [[fu|]|mail pw|mail pw| |]; unfold after; simpl perform.
  - rewrite onAuthStateChanged_present, fetchUserData_eq. simpl.
    destruct (getDoc_rejects fb (now w) _); simpl;
      [log_since; split_and!; try done; by intros [a Ha]|].
    destruct (firestore w !! _); simpl; [log_since; done|].
    destruct (setDoc_rejects fb _ _ _); simpl; log_since;
      split_and!; try done; by intros [a Ha].
  - rewrite onAuthStateChanged_absent. simpl. log_since. done.
  - rewrite login_eq. simpl.
    destruct (signInWithEmailAndPassword_result fb _ _ _) as [c|e1]; simpl; log_since.
    + split_and!; done.
    + split_and!; [done|by intros [a Ha]|]. by intros e [= ->].
  - rewrite signup_eq. simpl.
    destruct (createUserWithEmailAndPassword_result fb _ _ _) as [c|e1]; simpl;
      [destruct (setDoc_rejects fb _ _ _) as [e2|]; simpl|]; log_since.
    + split_and!; [done|by intros [a Ha]|]. by intros e [= ->].
    + split_and!; done.
    + split_and!; [done|by intros [a Ha]|]. by intros e [= ->].
  - rewrite loginWithGoogle_eq. unfold signInWithPopup. simpl.
    destruct (signInWithPopup_result fb _) as [c|e1]; simpl;
      [|destruct (popup_blocked e1) eqn:Hb; simpl]; log_since.
    + split_and!; done.
    + split_and!; [done|by intros [a Ha]|].
      intros e _. left. split; [|done].
      unfold popup_blocked in Hb.
      destruct e1 as [c m| |]; simpl in Hb; try discriminate.
      apply bool_decide_eq_true in Hb. injection Hb as ->. by exists m.
    + split_and!; [done|by intros [a Ha]|].
      intros e [= ->]. right. split_and!; [done| |done].
      intros m ->. simpl in Hb. discriminate.
  - rewrite logout_eq. simpl.
    destruct (signOut_rejects fb _) as [e1|]; simpl; log_since.
    + split_and!; [done|by intros [a Ha]|]. by intros e [= ->].
    + split_and!; done.
Qed.

Lemma console_discipline_witness :
  console (since (mount ∅)
             (after Sample.offline (Notify (Some Sample.alice)) (mount ∅))) = [] ∧
  console (since (mount ∅) (after Sample.offline CallLogout (mount ∅)))
  = [("Logout error:", Some (Js.Error "network"))] ∧
  console (since (mount ∅) (after Sample.offline CallLoginWithGoogle (mount ∅)))
  = [("Google login error:", Some (Js.FirebaseError "auth/popup-closed-by-user" ""))].
Proof.
  split_and!.
  - apply (proj1 (console_discipline Sample.offline (Notify (Some Sample.alice)) (mount ∅))).
    reflexivity.
  - apply (proj2 (proj2 (console_discipline Sample.offline CallLogout (mount ∅)))
             (Js.Error "network")).
    reflexivity.
  - destruct (proj2 (proj2 (console_discipline Sample.offline CallLoginWithGoogle (mount ∅)))
                (Js.FirebaseError "auth/popup-closed-by-user" "") eq_refl)
      as [[[m Hm] _]|(_ & _ & H)].
    + discriminate.
    + exact H.
Defined.

(** ** Further properties of the document store *)

(** One step changes a document only by storing a ["member"] record under
    [users/<id>]; a notification does so only where there was none. *)
Lemma step_store (fb : Firebase) (s : Stimulus) (w : World) (ref : string * string) :
  firestore (after fb s w) !! ref = firestore w !! ref ∨
  ∃ id mail,
    ref = doc "users" id ∧
    firestore (after fb s w) !! ref = Some (RoleRecord id mail (Js.Str "member")) ∧
    (is_notification s = true → firestore w !! ref = None).
Proof.
  destruct s as [[fu|]|mail pw|mail pw| |]; unfold after; simpl perform.
  - rewrite onAuthStateChanged_present, fetchUserData_eq. simpl.
    destruct (getDoc_rejects fb (now w) _); simpl; [by left|].
    destruct (firestore w !! doc "users" (uid fu)) eqn:Hdoc; simpl; [by left|].
    destruct (setDoc_rejects fb _ _ _); simpl; [by left|].
    destruct (decide (ref = doc "users" (uid fu))) as [->|Hne].
    + right. eexists _, _. split_and!; [reflexivity| |done].
      by rewrite lookup_insert_eq.
    + left. by rewrite lookup_insert_ne.
  - by left.
  - rewrite login_eq. simpl.
    destruct (signInWithEmailAndPassword_result fb _ _ _); by left.
  - rewrite signup_eq. simpl.
    destruct (createUserWithEmailAndPassword_result fb _ _ _) as [cred|e];
      simpl; [|by left].
    destruct (setDoc_rejects fb _ _ _); simpl; [by left|].
    destruct (decide (ref = doc "users" (uid (cred_user cred)))) as [->|Hne].
    + right. eexists _, _. split_and!; [reflexivity| |done].
      by rewrite lookup_insert_eq.
    + left. by rewrite lookup_insert_ne.
  - rewrite loginWithGoogle_eq. simpl.
    destruct (signInWithPopup_result fb _) as [cred|e]; simpl; [by left|].
    destruct (popup_blocked e); by left.
  - rewrite logout_eq. simpl. destruct (signOut_rejects fb _); by left.
Qed.

(** X5.  Over a whole lifetime, whatever the SDK answers: a document that differs
    from what the store held at the start is a [{uid, email, role}] record
    with role ["member"] under [users/]; so no document is ever deleted, no
    document outside [users/] is touched, and no role other than ["member"]
    is ever written. *)
Theorem store_only_gains_member_records (fb : Firebase) (ss : list Stimulus)
    (w : World) (ref : string * string) :
  (firestore (run fb ss w) !! ref = firestore w !! ref ∨
   ∃ id mail, ref = doc "users" id ∧
     firestore (run fb ss w) !! ref = Some (RoleRecord id mail (Js.Str "member"))) ∧
  (is_Some (firestore w !! ref) → is_Some (firestore (run fb ss w) !! ref)) ∧
  (ref.1 ≠ "users" → firestore (run fb ss w) !! ref = firestore w !! ref).
Proof.
  assert (Hmain : ∀ ss w,
    firestore (run fb ss w) !! ref = firestore w !! ref ∨
    ∃ id mail, ref = doc "users" id ∧
      firestore (run fb ss w) !! ref = Some (RoleRecord id mail (Js.Str "member"))).
  { clear ss w. induction ss as [|s ss IH]; intros w; [by left|]. simpl.
    destruct (IH (after fb s w)) as [Heq|Hrec]; [|by right].
    rewrite Heq.
    destruct (step_store fb s w ref) as [Hsame|(id & mail & -> & Hnew & _)];
      [by left|].
    right. by exists id, mail. }
  destruct (Hmain ss w) as [Heq|(id & mail & -> & Hrec)].
  - rewrite Heq. split_and!; [by left|done..].
  - rewrite Hrec. split_and!; [right; by exists id, mail|done|].
    intros Hne. by destruct Hne.
Qed.

Lemma store_only_gains_member_records_witness :
  is_Some (firestore
             (run Sample.online
                [Notify (Some Sample.alice); CallSignup "a@x.com" "pw"; Notify None]
                (mount Sample.odd_db)) !! doc "users" "u1") ∧
  firestore (run Sample.online [CallSignup "a@x.com" "pw"] (mount Sample.odd_db))
    !! ("teams", "ops") = None.
Proof.
  split.
  - apply (proj1 (proj2 (store_only_gains_member_records Sample.online
             [Notify (Some Sample.alice); CallSignup "a@x.com" "pw"; Notify None]
             (mount Sample.odd_db) (doc "users" "u1")))).
    eexists. reflexivity.
  - rewrite (proj2 (proj2 (store_only_gains_member_records Sample.online
             [CallSignup "a@x.com" "pw"] (mount Sample.odd_db) ("teams", "ops"))));
      [reflexivity|discriminate].
Defined.

(** X6.  Handling a notification never changes a document that exists: the
    record of a known user is read and left as it is, with whatever role and
    other fields it has, and documents of other users are not touched. *)
Theorem notification_never_overwrites (fb : Firebase) (firebaseUser : option User)
    (w : World) (ref : string * string) :
  let w' := after fb (Notify firebaseUser) w in
  (is_Some (firestore w !! ref) → firestore w' !! ref = firestore w !! ref) ∧
  (∀ u, firebaseUser = Some u → ref ≠ doc "users" (uid u) →
     firestore w' !! ref = firestore w !! ref).
Proof.
  intros w'. subst w'. split.
  - intros [d Hd].
    destruct (step_store fb (Notify firebaseUser) w ref)
      as [Hsame|(id & mail & _ & _ & Hnone)]; [done|].
    rewrite Hnone in Hd by done. discriminate.
  - intros u -> Hne. unfold after. simpl perform.
    rewrite onAuthStateChanged_present, fetchUserData_eq. simpl.
    destruct (getDoc_rejects fb (now w) _); simpl; [done|].
    destruct (firestore w !! doc "users" (uid u)); simpl; [done|].
    destruct (setDoc_rejects fb _ _ _); simpl; [done|].
    by rewrite lookup_insert_ne.
Qed.

Lemma notification_never_overwrites_witness :
  firestore (after Sample.online (Notify (Some Sample.alice)) (mount Sample.odd_db))
    !! doc "users" "u1"
  = Some (<["role" := Js.Num Sample.seven]> (<["team" := Js.Str "ops"]> ∅)).
Proof.
  rewrite (proj1 (notification_never_overwrites Sample.online (Some Sample.alice)
                    (mount Sample.odd_db) (doc "users" "u1"))).
  - reflexivity.
  - eexists. reflexivity.
Defined.

(** X7.  A signup that resolves replaces the document [users/<uid>] of the new
    identity as a whole: whatever was stored there (another role, other
    fields) is gone, and every other document is as before. *)
Theorem signup_replaces_document (fb : Firebase) (mail password : string)
    (w : World) (cred : UserCredential) :
  let w' := after fb (CallSignup mail password) w in
  let userRef := doc "users" (uid (cred_user cred)) in
  (createUserWithEmailAndPassword fb mail password w).1 = Ok cred →
  fulfilled (signup fb mail password w) →
  firestore w' !! userRef
  = Some (RoleRecord (uid (cred_user cred)) (Js.Str mail) (Js.Str "member")) ∧
  (∀ field, field ∉ ({["uid"; "email"; "role"]} : gset string) →
     ∀ d, firestore w' !! userRef = Some d → d !! field = None) ∧
  (∀ ref, ref ≠ userRef → firestore w' !! ref = firestore w !! ref).
Proof.
  intros w' userRef. subst w' userRef. unfold after. simpl perform.
  rewrite signup_eq. unfold createUserWithEmailAndPassword. simpl.
  intros ->.
  destruct (setDoc_rejects fb _ _ _); [by intros [a Ha]|]. intros _. simpl.
  rewrite lookup_insert_eq. split_and!; [done| |].
  - intros field Hfield d [= <-].
    apply not_elem_of_dom.
    by destruct (RoleRecord_fields (uid (cred_user cred)) (Js.Str mail) (Js.Str "member"))
      as (_ & _ & _ & ->).
  - intros ref Hne. by rewrite lookup_insert_ne.
Qed.

Lemma signup_replaces_document_witness :
  firestore (after Sample.reissued (CallSignup "a@x.com" "pw") (mount Sample.admin_db))
    !! doc "users" "u1"
  = Some (RoleRecord "u1" (Js.Str "a@x.com") (Js.Str "member")).
Proof.
  apply (signup_replaces_document Sample.reissued "a@x.com" "pw"
           (mount Sample.admin_db) {| cred_user := Sample.alice |}).
  - reflexivity.
  - exists (). reflexivity.
Defined.

(** ** Further properties of role reconciliation *)

(** X8.  The role read from an existing record is the value the field
    holds whenever that value is truthy: a non-empty string, [true], a number
    other than [+0], [-0] and [NaN], an array or a map is published as it is,
    so the published role need not be a string.  [null], [false], both
    zeros, [NaN] and the empty string fall back to ["member"]. *)
Theorem role_is_any_truthy_value (fb : Firebase) (firebaseUser : User) (w : World)
    (data : gmap string Js.value) (v : Js.value) :
  let w' := after fb (Notify (Some firebaseUser)) w in
  let published_role (r : Js.value) :=
    user w' = Some {| spread := firebaseUser; role := Some r |} in
  firestore w !! doc "users" (uid firebaseUser) = Some data →
  data !! "role" = Some v →
  fulfilled (onAuthStateChanged fb (Some firebaseUser) w) →
  published_role (if Js.truthy v then v else Js.Str "member") ∧
  (v = Js.Null ∨ v = Js.Bool false ∨ v = Js.Str "" ∨
   v = Js.Num (S754_zero false) ∨ v = Js.Num (S754_zero true) ∨
   v = Js.Num S754_nan →
     published_role (Js.Str "member")) ∧
  (v = Js.Bool true ∨
   (∃ s, v = Js.Str s ∧ s ≠ "") ∨
   (∃ sign, v = Js.Num (S754_infinity sign)) ∨
   (∃ sign m e, v = Js.Num (S754_finite sign m e)) ∨
   (∃ items, v = Js.Array items) ∨
   (∃ fields, v = Js.Map fields) →
     published_role v).
Proof.
  intros w' published_role Hdata Hrole. subst published_role w'.
  unfold after. simpl perform.
  rewrite onAuthStateChanged_present, fetchUserData_eq. simpl.
  rewrite Hdata, Hrole.
  destruct (getDoc_rejects fb (now w) _); [by intros [a Ha]|]. intros _. simpl.
  split_and!; [done| |].
  - by intros [-> | [-> | [-> | [-> | [-> | ->]]]]].
  - intros [-> | [(s & -> & Hs) | [(sign & ->) | [(sign & m & e & ->) |
             [(items & ->) | (fields & ->)]]]]]; try done.
    simpl. destruct (String.eqb s "") eqn:E; [|done].
    by apply String.eqb_eq in E.
Qed.

Lemma role_is_any_truthy_value_witness :
  valid_binary 53 1024 Sample.seven = true ∧
  user (after Sample.online (Notify (Some Sample.alice)) (mount Sample.odd_db))
  = Some {| spread := Sample.alice; role := Some (Js.Num Sample.seven) |} ∧
  user (after Sample.online (Notify (Some Sample.alice)) (mount Sample.nan_db))
  = Some {| spread := Sample.alice; role := Some (Js.Str "member") |}.
Proof.
  split_and!.
  - reflexivity.
  - apply (proj2 (proj2
      (role_is_any_truthy_value Sample.online Sample.alice (mount Sample.odd_db)
         (<["role" := Js.Num Sample.seven]> (<["team" := Js.Str "ops"]> ∅))
         (Js.Num Sample.seven) eq_refl eq_refl (ex_intro _ () eq_refl)))).
    right. right. right. left. by eexists _, _, _.
  - apply (proj1 (proj2
      (role_is_any_truthy_value Sample.online Sample.alice (mount Sample.nan_db)
         (<["role" := Js.Num S754_nan]> ∅)
         (Js.Num S754_nan) eq_refl eq_refl (ex_intro _ () eq_refl)))).
    do 5 right. reflexivity.
Defined.

(** X9.  A notification handled to completion for a user leaves things so that a
    second one for the same user, again handled to completion, writes
    nothing and changes neither the user, the flag nor the store. *)
Theorem repeated_notification_is_idempotent (fb : Firebase) (firebaseUser : User)
    (w : World) :
  let w1 := after fb (Notify (Some firebaseUser)) w in
  let w2 := after fb (Notify (Some firebaseUser)) w1 in
  fulfilled (onAuthStateChanged fb (Some firebaseUser) w) →
  fulfilled (onAuthStateChanged fb (Some firebaseUser) w1) →
  writes (since w1 w2) = [] ∧
  user w2 = user w1 ∧
  authReady w2 = authReady w1 ∧
  firestore w2 = firestore w1.
Proof.
  intros w1 w2. subst w2 w1. unfold after. simpl perform.
  rewrite (onAuthStateChanged_present fb firebaseUser w), (fetchUserData_eq fb firebaseUser w).
  simpl.
  destruct (getDoc_rejects fb (now w) _); [by intros [a Ha]|].
  destruct (firestore w !! doc "users" (uid firebaseUser)) as [data|] eqn:Hdoc; simpl.
  - intros _.
    rewrite onAuthStateChanged_present, fetchUserData_eq. simpl. rewrite Hdoc.
    destruct (getDoc_rejects fb _ _); [by intros [a Ha]|]. intros _. simpl.
    log_since. done.
  - destruct (setDoc_rejects fb _ _ _); [by intros [a Ha]|]. intros _. simpl.
    rewrite onAuthStateChanged_present, fetchUserData_eq. simpl.
    rewrite lookup_insert_eq.
    destruct (getDoc_rejects fb _ _); [by intros [a Ha]|]. intros _. simpl.
    log_since. simpl.
    destruct (RoleRecord_fields (uid firebaseUser)
                (Js.of_nullable (email firebaseUser)) (Js.Str "member"))
      as (_ & _ & -> & _).
    done.
Qed.

Lemma repeated_notification_is_idempotent_witness :
  writes (since (after Sample.online (Notify (Some Sample.alice)) (mount ∅))
            (after Sample.online (Notify (Some Sample.alice))
               (after Sample.online (Notify (Some Sample.alice)) (mount ∅)))) = [].
Proof.
  apply (repeated_notification_is_idempotent Sample.online Sample.alice (mount ∅)).
  - exists (). reflexivity.
  - exists (). reflexivity.
Defined.

Lemma member_record_stays (fb : Firebase) (ss : list Stimulus) (w : World)
    (ref : string * string) :
  (∃ d, firestore w !! ref = Some d ∧ d !! "role" = Some (Js.Str "member")) →
  ∃ d, firestore (run fb ss w) !! ref = Some d ∧ d !! "role" = Some (Js.Str "member").
Proof.
  revert w. induction ss as [|s ss IH]; intros w Hw; [done|].
  simpl. apply IH. destruct Hw as (d & Hd & Hrole).
  destruct (step_store fb s w ref) as [Hsame|(id & mail & _ & Hnew & _)].
  - exists d. by rewrite Hsame.
  - eexists. split; [exact Hnew|].
    by destruct (RoleRecord_fields id mail (Js.Str "member")) as (_ & _ & -> & _).
Qed.

(** X10.  After a signup that resolved, and whatever else happens in between,
    a notification for the new identity that is handled to completion finds
    the record, writes nothing, and publishes the user with role
    ["member"]. *)
Theorem signup_then_notification (fb : Firebase) (mail password : string)
    (w : World) (cred : UserCredential) (ss : list Stimulus) (firebaseUser : User) :
  let w1 := run fb ss (after fb (CallSignup mail password) w) in
  let w2 := after fb (Notify (Some firebaseUser)) w1 in
  (createUserWithEmailAndPassword fb mail password w).1 = Ok cred →
  fulfilled (signup fb mail password w) →
  uid firebaseUser = uid (cred_user cred) →
  fulfilled (onAuthStateChanged fb (Some firebaseUser) w1) →
  writes (since w1 w2) = [] ∧
  firestore w2 = firestore w1 ∧
  user w2 = Some {| spread := firebaseUser; role := Some (Js.Str "member") |}.
Proof.
  intros w1 w2 Hcred Hdone Huid.
  assert (Hrec : ∃ d, firestore w1 !! doc "users" (uid firebaseUser) = Some d ∧
                      d !! "role" = Some (Js.Str "member")).
  { apply member_record_stays. rewrite Huid.
    revert Hcred Hdone. unfold after. simpl perform.
    rewrite signup_eq. unfold createUserWithEmailAndPassword. simpl. intros ->.
    destruct (setDoc_rejects fb _ _ _); [by intros [a Ha]|]. intros _. simpl.
    eexists. split; [apply lookup_insert_eq|].
    by destruct (RoleRecord_fields (uid (cred_user cred)) (Js.Str mail) (Js.Str "member"))
      as (_ & _ & -> & _). }
  destruct Hrec as (d & Hd & Hrole).
  subst w2. generalize dependent w1. intros w1 Hd. unfold after. simpl perform.
  rewrite onAuthStateChanged_present, fetchUserData_eq. simpl. rewrite Hd.
  destruct (getDoc_rejects fb _ _); [by intros [a Ha]|]. intros _. simpl.
  log_since. rewrite Hrole. done.
Qed.

Lemma signup_then_notification_witness :
  user (after Sample.online (Notify (Some (Sample.new_user "a@x.com")))
          (run Sample.online [CallLogout; Notify None]
             (after Sample.online (CallSignup "a@x.com" "pw") (mount ∅))))
  = Some {| spread := Sample.new_user "a@x.com"; role := Some (Js.Str "member") |}.
Proof.
  apply (signup_then_notification Sample.online "a@x.com" "pw" (mount ∅)
           {| cred_user := Sample.new_user "a@x.com" |} [CallLogout; Notify None]
           (Sample.new_user "a@x.com")).
  - reflexivity.
  - exists (). reflexivity.
  - reflexivity.
  - exists (). reflexivity.
Defined.

(** X11.  When [signup] created the account but the write of the record rejected,
    the account is left without a record; the next notification for that
    identity that is handled to completion creates it, with the email the
    platform reports. *)
Theorem failed_signup_write_is_made_up (fb : Firebase) (mail password : string)
    (w : World) (cred : UserCredential) (e : Js.thrown) (firebaseUser : User) :
  let userRef := doc "users" (uid firebaseUser) in
  let record := RoleRecord (uid firebaseUser)
                  (Js.of_nullable (email firebaseUser)) (Js.Str "member") in
  let w1 := after fb (CallSignup mail password) w in
  let w2 := after fb (Notify (Some firebaseUser)) w1 in
  firestore w !! userRef = None →
  (createUserWithEmailAndPassword fb mail password w).1 = Ok cred →
  rejected (signup fb mail password w) e →
  uid firebaseUser = uid (cred_user cred) →
  fulfilled (onAuthStateChanged fb (Some firebaseUser) w1) →
  firestore w1 !! userRef = None ∧
  writes (since w1 w2) = [(userRef, record)] ∧
  firestore w2 !! userRef = Some record ∧
  user w2 = Some {| spread := firebaseUser; role := Some (Js.Str "member") |}.
Proof.
  intros userRef record w1 w2 Hnone Hcred Hrej Huid.
  assert (Hw1 : firestore w1 !! userRef = None).
  { subst w1. revert Hcred Hrej. unfold after, rejected. simpl perform.
    rewrite signup_eq. unfold createUserWithEmailAndPassword. simpl. intros ->.
    destruct (setDoc_rejects fb _ _ _); [done|discriminate]. }
  subst w2. generalize dependent w1. intros w1 Hw1. unfold after. simpl perform.
  rewrite onAuthStateChanged_present, fetchUserData_eq. simpl.
  fold userRef record. rewrite Hw1.
  destruct (getDoc_rejects fb _ _); [by intros [a Ha]|].
  destruct (setDoc_rejects fb _ _ _); [by intros [a Ha]|]. intros _. simpl.
  log_since. simpl. rewrite lookup_insert_eq. done.
Qed.

Lemma failed_signup_write_is_made_up_witness :
  firestore
    (after Sample.flaky (Notify (Some (Sample.new_user "a@x.com")))
       (after Sample.flaky (CallSignup "a@x.com" "pw") (mount ∅)))
    !! doc "users" "id-a@x.com"
  = Some (RoleRecord "id-a@x.com" (Js.Str "a@x.com") (Js.Str "member")).
Proof.
  destruct (failed_signup_write_is_made_up Sample.flaky "a@x.com" "pw" (mount ∅)
              {| cred_user := Sample.new_user "a@x.com" |} Sample.unavailable
              (Sample.new_user "a@x.com")) as (_ & _ & H & _).
  - reflexivity.
  - reflexivity.
  - reflexivity.
  - reflexivity.
  - exists (). reflexivity.
  - exact H.
Defined.

(** ** Further properties of the readiness flag *)

(** X12.  The flag is true at the end of a run exactly when some notification of
    the run was handled to completion; actions and rejected handlers never
    set it. *)
Theorem authReady_iff_notification_completed (fb : Firebase)
    (db : gmap (string * string) (gmap string Js.value)) (ss : list Stimulus) :
  authReady (run fb ss (mount db)) = true ↔
  ∃ pre firebaseUser post,
    ss = pre ++ Notify firebaseUser :: post ∧
    fulfilled (onAuthStateChanged fb firebaseUser (run fb pre (mount db))).
Proof. apply authReady_run_iff. reflexivity. Qed.

Lemma authReady_iff_notification_completed_witness :
  authReady (run Sample.flaky
               [CallSignup "a@x.com" "pw"; Notify (Some Sample.alice); Notify None]
               (mount ∅)) = true.
Proof.
  apply (proj2 (authReady_iff_notification_completed Sample.flaky ∅
           [CallSignup "a@x.com" "pw"; Notify (Some Sample.alice); Notify None])).
  exists [CallSignup "a@x.com" "pw"], (Some Sample.alice), [Notify None].
  split; [reflexivity|]. exists (). reflexivity.
Defined.

(** X13.  While every read of the document store rejects, a run in which no
    notification reports absence never becomes ready and never has a user:
    consumers waiting for [authReady] wait for ever. *)
Theorem store_down_never_ready (fb : Firebase)
    (db : gmap (string * string) (gmap string Js.value)) (ss : list Stimulus) :
  (∀ t ref, is_Some (getDoc_rejects fb t ref)) →
  forallb reports_user ss = true →
  authReady (run fb ss (mount db)) = false ∧
  user (run fb ss (mount db)) = None.
Proof.
  intros Hdown.
  assert (Hgen : ∀ ss w, authReady w = false → user w = None →
    forallb reports_user ss = true →
    authReady (run fb ss w) = false ∧ user (run fb ss w) = None).
  { clear ss. induction ss as [|s ss IH]; intros w Hr Hu Hss; [done|].
    simpl in *. apply andb_prop in Hss as [Hs Hss].
    apply IH; [| |done].
    - destruct (is_notification s) eqn:Hn.
      + destruct s as [[fu|]| | | |]; try discriminate.
        unfold after. simpl perform.
        rewrite onAuthStateChanged_present, fetchUserData_eq. simpl.
        by destruct (Hdown (now w) (doc "users" (uid fu))) as [e ->].
      + destruct (action_frame fb s w Hn) as (_ & H & _). congruence.
    - destruct (is_notification s) eqn:Hn.
      + destruct s as [[fu|]| | | |]; try discriminate.
        unfold after. simpl perform.
        rewrite onAuthStateChanged_present, fetchUserData_eq. simpl.
        by destruct (Hdown (now w) (doc "users" (uid fu))) as [e ->].
      + destruct (action_frame fb s w Hn) as (H & _). congruence. }
  intros Hss. by apply Hgen.
Qed.

Lemma store_down_never_ready_witness :
  authReady (run Sample.offline
               [Notify (Some Sample.alice); CallLogin "a@x.com" "pw";
                Notify (Some Sample.alice)] (mount Sample.admin_db)) = false.
Proof.
  apply (store_down_never_ready Sample.offline Sample.admin_db
           [Notify (Some Sample.alice); CallLogin "a@x.com" "pw";
            Notify (Some Sample.alice)]).
  - intros t ref. eexists. reflexivity.
  - reflexivity.
Defined.

(** ** The user over a component lifetime *)

Lemma user_run_actions (fb : Firebase) (ss : list Stimulus) (w : World) :
  forallb (λ s, negb (is_notification s)) ss = true →
  user (run fb ss w) = user w ∧ authReady (run fb ss w) = authReady w.
Proof.
  revert w. induction ss as [|s ss IH]; intros w Hss; [done|].
  simpl in *. apply andb_prop in Hss as [Hs Hss].
  destruct (IH (after fb s w) Hss) as [-> ->].
  destruct (action_frame fb s w) as (Hu & Hr & _); [|done].
  by destruct (is_notification s).
Qed.

(** X14.  The identity of the user in the state is the one reported by the last
    notification handled to completion, [null] included; actions called
    since then, [logout] among them, do not change it. *)
Theorem user_mirrors_last_notification (fb : Firebase) (w : World)
    (firebaseUser : option User) (post : list Stimulus) :
  let w' := run fb (Notify firebaseUser :: post) w in
  fulfilled (onAuthStateChanged fb firebaseUser w) →
  forallb (λ s, negb (is_notification s)) post = true →
  spread <$> user w' = firebaseUser ∧
  authReady w' = true.
Proof.
  intros w' Hdone Hpost. subst w'. simpl.
  destruct (user_run_actions fb post (after fb (Notify firebaseUser) w) Hpost)
    as [-> ->].
  revert Hdone. unfold after. simpl perform.
  destruct firebaseUser as [fu|]; [|done].
  rewrite onAuthStateChanged_present, fetchUserData_eq. simpl.
  destruct (getDoc_rejects fb (now w) _); [by intros [a Ha]|].
  destruct (firestore w !! _); simpl; [done|].
  destruct (setDoc_rejects fb _ _ _); [by intros [a Ha]|]. done.
Qed.

Lemma user_mirrors_last_notification_witness :
  spread <$> user (run Sample.online
                     [Notify (Some Sample.alice); CallLogout; CallLoginWithGoogle]
                     (mount ∅))
  = Some Sample.alice.
Proof.
  apply (user_mirrors_last_notification Sample.online (mount ∅) (Some Sample.alice)
           [CallLogout; CallLoginWithGoogle]).
  - exists (). reflexivity.
  - reflexivity.
Defined.
